(** * fan_control.py: hysteresis fan controller for a Raspberry Pi

    A shallow embedding of [fan_control.py] and the properties of its
    control loop.  The script polls the core temperature through
    [vcgencmd measure_temp], parses the reply, and switches a GPIO
    output on above [ON_THRESHOLD] and off below [OFF_THRESHOLD].

    Layout:
    - [Py]: the pieces of Python the script relies on (exceptions,
      [str.split], indexing, binary64 floats, [float(str)], mixed
      float/int comparison);
    - [FanControl]: the script itself, function by function;
    - the properties of the parser, of one poll and of [main]. *)

From Stdlib Require Import ZArith List String Ascii Bool Lia.
From Stdlib Require Import Floats.SpecFloat.
Import ListNotations.

Local Open Scope string_scope.
Local Open Scope Z_scope.

(* ===================================================================== *)
(** * The Python fragment used by the script *)
(* ===================================================================== *)

Module Py.

(** ** Exceptions and results *)

(** The exception classes the script can meet. *)
Inductive Exn : Type :=
| IndexError
| ValueError
| RuntimeError (msg : string).

(** The result of evaluating an expression: a value or a raised
    exception. *)
Inductive Outcome (A : Type) : Type :=
| Return (a : A)
| Raise (e : Exn).

Arguments Return {A} a.
Arguments Raise {A} e.

Definition bind {A B} (c : Outcome A) (k : A -> Outcome B) : Outcome B :=
  match c with
  | Return a => k a
  | Raise e => Raise e
  end.

(** [try: c except (IndexError, ValueError): h] *)
Definition try_except_index_value {A} (c : Outcome A) (h : Outcome A)
  : Outcome A :=
  match c with
  | Raise IndexError | Raise ValueError => h
  | other => other
  end.

Definition raises {A} (c : Outcome A) : bool :=
  match c with Raise _ => true | Return _ => false end.

(** ** Strings

    A [str] is modelled by [string]; each [ascii] is one code point in
    the range 0..255. *)

(** [s.split(sep)] for a one-character separator: the pieces between
    the occurrences of [sep], always at least one piece. *)
Fixpoint split (sep : ascii) (s : string) : list string :=
  match s with
  | EmptyString => [EmptyString]
  | String c rest =>
      if Ascii.eqb c sep then EmptyString :: split sep rest
      else match split sep rest with
           | piece :: pieces => String c piece :: pieces
           | [] => [String c EmptyString]
           end
  end.

(** [l[i]] for a non-negative literal index. *)
Definition getitem {A} (l : list A) (i : nat) : Outcome A :=
  match nth_error l i with
  | Some x => Return x
  | None => Raise IndexError
  end.

(** [c in s] *)
Fixpoint contains (c : ascii) (s : string) : bool :=
  match s with
  | EmptyString => false
  | String d rest => Ascii.eqb d c || contains c rest
  end.

(** The line feed that ends a line of output. *)
Definition LF : string := String "010" EmptyString.

(** ** Floats: IEEE 754 binary64 *)

Definition prec : Z := 53.
Definition emax : Z := 1024.

(** A Python [float]: a binary64 datum. *)
Definition float : Type := spec_float.

Definition inf : float := S754_infinity false.
Definition nan : float := S754_nan.

Definition is_finite (x : float) : bool :=
  match x with
  | S754_zero _ | S754_finite _ _ _ => true
  | S754_infinity _ | S754_nan => false
  end.

(** [float(n)] for an integer: the nearest binary64 value. *)
Definition float_of_int (n : Z) : float :=
  binary_normalize prec emax n 0 false.

(** Comparison of a float with an [int].  CPython compares the two
    exact values (no rounding of the integer); a NaN is unordered. *)
Definition compare_int (x : float) (n : Z) : option comparison :=
  match x with
  | S754_nan => None
  | S754_infinity s => Some (if s then Lt else Gt)
  | S754_zero _ => Some (0 ?= n)
  | S754_finite s m e =>
      let v := if s then Zneg m else Zpos m in
      Some match e with
           | Zneg k => v ?= n * 2 ^ Zpos k
           | _ => v * 2 ^ e ?= n
           end
  end.

(** [x > n] *)
Definition gt_int (x : float) (n : Z) : bool :=
  match compare_int x n with Some Gt => true | _ => false end.

(** [x < n] *)
Definition lt_int (x : float) (n : Z) : bool :=
  match compare_int x n with Some Lt => true | _ => false end.

(** [x == n] *)
Definition eq_int (x : float) (n : Z) : bool :=
  match compare_int x n with Some Eq => true | _ => false end.

(** ** [float(str)]

    The text is stripped of surrounding white space and must then be
    [[sign] (inf | infinity | nan)] in any case, or a decimal literal
    [[sign] (digits [. [digits]] | . digits) [(e|E) [sign] digits]]
    where single underscores may separate digits.  The value is the
    binary64 number nearest to the decimal one (ties to even). *)

Definition is_digit (c : ascii) : bool :=
  let n := nat_of_ascii c in (48 <=? n)%nat && (n <=? 57)%nat.

Definition digit_value (c : ascii) : Z :=
  Z.of_nat (nat_of_ascii c) - 48.

(** White space: tab, LF, VT, FF, CR and space; outside ASCII the
    text is first normalised, which turns NEL and NBSP into a space. *)
Definition is_space (c : ascii) : bool :=
  let n := nat_of_ascii c in
  ((9 <=? n)%nat && (n <=? 13)%nat) || (n =? 32)%nat
  || (n =? 133)%nat || (n =? 160)%nat.

Definition lower (c : ascii) : ascii :=
  let n := nat_of_ascii c in
  if (65 <=? n)%nat && (n <=? 90)%nat then ascii_of_nat (n + 32) else c.

Fixpoint lstrip (s : list ascii) : list ascii :=
  match s with
  | c :: rest => if is_space c then lstrip rest else s
  | [] => []
  end.

Definition strip (s : list ascii) : list ascii :=
  rev (lstrip (rev (lstrip s))).

(** Underscores are accepted only between two digits.  [prev] is the
    previous character, if any. *)
Fixpoint drop_underscores (prev : option ascii) (s : list ascii)
  : option (list ascii) :=
  let after_digit :=
    match prev with Some p => is_digit p | None => false end in
  let after_underscore :=
    match prev with Some p => Ascii.eqb p "_" | None => false end in
  match s with
  | [] => if after_underscore then None else Some []
  | c :: rest =>
      if Ascii.eqb c "_" then
        if after_digit then drop_underscores (Some c) rest else None
      else if after_underscore && negb (is_digit c) then None
      else option_map (cons c) (drop_underscores (Some c) rest)
  end.

(** The longest prefix of digits, read as a number, with its length
    and the remaining text. *)
Fixpoint take_digits (acc : Z) (len : Z) (s : list ascii)
  : Z * Z * list ascii :=
  match s with
  | c :: rest =>
      if is_digit c then take_digits (10 * acc + digit_value c) (len + 1) rest
      else (acc, len, s)
  | [] => (acc, len, [])
  end.

Definition take_sign (s : list ascii) : bool * list ascii :=
  match s with
  | c :: rest =>
      if Ascii.eqb c "-" then (true, rest)
      else if Ascii.eqb c "+" then (false, rest)
      else (false, s)
  | [] => (false, [])
  end.

(** The binary64 value nearest to [(-1)^neg * m * 10^e]. *)
Definition of_decimal (neg : bool) (m : Z) (e : Z) : float :=
  match m with
  | Zpos p =>
      match e with
      | Zneg k =>
          SFdiv prec emax (S754_finite neg p 0)
                (S754_finite false (Pos.pow 10 k) 0)
      | _ => binary_normalize prec emax ((if neg then Zneg p else m) * 10 ^ e)
                              0 neg
      end
  | _ => S754_zero neg
  end.

(** The optional exponent part: [(e|E) [sign] digits].  When no digit
    follows, the [e] is not part of the number. *)
Definition take_exponent (s : list ascii) : Z * list ascii :=
  match s with
  | c :: rest =>
      if Ascii.eqb (lower c) "e" then
        let '(eneg, rest1) := take_sign rest in
        let '(x, n, rest2) := take_digits 0 0 rest1 in
        if n =? 0 then (0, s) else ((if eneg then - x else x), rest2)
      else (0, s)
  | [] => (0, [])
  end.

(** A decimal literal, which must span the whole text. *)
Definition parse_decimal (s : list ascii) : option float :=
  let '(neg, s0) := take_sign s in
  let '(ip, ilen, s1) := take_digits 0 0 s0 in
  let '(m, flen, s2) :=
    match s1 with
    | c :: rest =>
        if Ascii.eqb c "." then take_digits ip 0 rest else (ip, 0, s1)
    | [] => (ip, 0, s1)
    end in
  if ilen + flen =? 0 then None
  else
    match take_exponent s2 with
    | (x, []) => Some (of_decimal neg m (x - flen))
    | (_, _ :: _) => None
    end.

Definition parse_inf_or_nan (s : list ascii) : option float :=
  let '(neg, s0) := take_sign s in
  let word := string_of_list_ascii (map lower s0) in
  if String.eqb word "inf" || String.eqb word "infinity"
  then Some (S754_infinity neg)
  else if String.eqb word "nan" then Some S754_nan
  else None.

Definition parse_float (s : string) : option float :=
  match drop_underscores None (list_ascii_of_string s) with
  | None => None
  | Some t =>
      let body := strip t in
      match parse_decimal body with
      | Some x => Some x
      | None => parse_inf_or_nan body
      end
  end.

(** [float(s)]: raises [ValueError] when the text is not a number. *)
Definition float_of_str (s : string) : Outcome float :=
  match parse_float s with
  | Some x => Return x
  | None => Raise ValueError
  end.

End Py.

(* ===================================================================== *)
(** * The script *)
(* ===================================================================== *)

Module FanControl.
Import Py.

(** ** Module-level configuration *)

Record Config : Type := {
  ON_THRESHOLD : Z;     (* degrees Celsius: the fan kicks on above it *)
  OFF_THRESHOLD : Z;    (* degrees Celsius: the fan shuts off below it *)
  SLEEP_INTERVAL : Z;   (* seconds between two checks *)
  GPIO_PIN : Z;         (* the pin that drives the fan *)
  LOG_FILENAME : string
}.

(** The values written in the script. *)
Definition script_config : Config := {|
  ON_THRESHOLD := 65;
  OFF_THRESHOLD := 55;
  SLEEP_INTERVAL := 5;
  GPIO_PIN := 23;
  LOG_FILENAME := "/var/log/fan_control.log"
|}.

(** ** The outside world *)

(** The output device: [fan.value] is 1 when on and 0 when off. *)
Inductive FanState : Type := Off | On.

Definition value (s : FanState) : bool :=
  match s with On => true | Off => false end.

Inductive Level : Type := INFO | WARNING.

Inductive Handler : Type :=
| FileHandler (path : string)
| StreamHandler.

Inductive Message : Type :=
| CpuTemp (temp : float)      (* f"CPU temp: {temp}" *)
| Text (s : string).

(** What the script does to its environment, in order. *)
Inductive Event : Type :=
| AddHandler (h : Handler)          (* logger.addHandler(h) *)
| Log (lvl : Level) (msg : Message) (* logger.info / logger.warning *)
| OpenDevice (pin : Z)              (* OutputDevice(pin) *)
| RunVcgencmd                       (* subprocess.run(['vcgencmd', ...]) *)
| ReadFan                           (* fan.value *)
| FanOn                             (* fan.on() *)
| FanOff                            (* fan.off() *)
| Sleep (seconds : Z).              (* time.sleep(seconds) *)

(** [replies k] is the decoded standard output of the [k]-th run of
    [vcgencmd measure_temp]; [runs] counts the runs made so far; [fan]
    is the state of the output pin; [trace] lists the events so far,
    oldest first. *)
Record World : Type := {
  replies : nat -> string;
  runs : nat;
  fan : FanState;
  trace : list Event
}.

(** A command: it runs in a world and either returns or raises, and in
    both cases leaves a world behind. *)
Definition M (A : Type) : Type := World -> Outcome A * World.

Definition ret {A} (a : A) : M A := fun w => (Return a, w).

Definition raise {A} (e : Exn) : M A := fun w => (Raise e, w).

Definition seq {A B} (c : M A) (k : A -> M B) : M B :=
  fun w =>
    match c w with
    | (Return a, w1) => k a w1
    | (Raise e, w1) => (Raise e, w1)
    end.

Definition lift {A} (o : Outcome A) : M A := fun w => (o, w).

Notation "x <- c ;; k" := (seq c (fun x => k))
  (at level 61, c at next level, right associativity).
Notation "c ;; k" := (seq c (fun _ => k))
  (at level 61, right associativity).

Definition emit (e : Event) : M unit :=
  fun w => (Return tt,
            {| replies := replies w; runs := runs w; fan := fan w;
               trace := trace w ++ [e] |}).

Definition set_fan (s : FanState) : M unit :=
  fun w => (Return tt,
            {| replies := replies w; runs := runs w; fan := s;
               trace := trace w |}).

(** [subprocess.run(['vcgencmd', 'measure_temp'], capture_output=True)]
    followed by [output.stdout.decode()]. *)
Definition run_vcgencmd : M string :=
  fun w => (Return (replies w (runs w)),
            {| replies := replies w; runs := S (runs w); fan := fan w;
               trace := trace w ++ [RunVcgencmd] |}).

(** [OutputDevice(pin)]: the pin is configured as an output and
    driven to its initial value, off. *)
Definition OutputDevice (pin : Z) : M unit :=
  emit (OpenDevice pin) ;; set_fan Off.

(** [fan.value] *)
Definition fan_value : M bool :=
  emit ReadFan ;; fun w => (Return (value (fan w)), w).

(** [fan.on()] *)
Definition fan_on : M unit := emit FanOn ;; set_fan On.

(** [fan.off()] *)
Definition fan_off : M unit := emit FanOff ;; set_fan Off.

Definition logger_info (msg : Message) : M unit := emit (Log INFO msg).

Definition logger_warning (msg : Message) : M unit := emit (Log WARNING msg).

Definition time_sleep (seconds : Z) : M unit := emit (Sleep seconds).

(** ** [get_temp] *)

(** The [try] block of [get_temp], applied to the decoded output:
    [float(temp_str.split('=')[1].split('\'')[0])], where an
    [IndexError] or a [ValueError] becomes a [RuntimeError]. *)
Definition get_temp_parse (temp_str : string) : Outcome float :=
  try_except_index_value
    (bind (getitem (split "=" temp_str) 1) (fun after_eq =>
     bind (getitem (split "'" after_eq) 0) (fun number =>
     float_of_str number)))
    (Raise (RuntimeError "Could not parse temperature output.")).

(** [number] is the text of [temp_str] that follows its first ['=']
    and runs up to the next ['='] or quote, or to the end. *)
Definition number_field (temp_str number : string) : Prop :=
  exists before rest,
    temp_str = before ++ String "=" (number ++ rest)
    /\ contains "=" before = false
    /\ contains "=" number = false
    /\ contains "'" number = false
    /\ (rest = "" \/ exists r, rest = String "=" r \/ rest = String "'" r).

(** [get_temp]: run the sensor, then parse what it printed.  The copy
    of the script under [src/] runs the command inside the [try]; on
    the decoded output it parses in the same way. *)
Definition get_temp : M float :=
  temp_str <- run_vcgencmd ;;
  lift (get_temp_parse temp_str).

(** ** [setup_logger] *)

Definition setup_logger (cfg : Config) (debug : bool) : M unit :=
  emit (AddHandler (FileHandler (LOG_FILENAME cfg))) ;;
  if debug then emit (AddHandler StreamHandler) else ret tt.

(** ** [main] *)

(** What one pass through the [if]/[elif] of the loop decides: the
    state the fan is left in and the call made on it. *)
Inductive Action : Type := turnOn | turnOff | none.

Definition pollOnce (cfg : Config) (currentTemp : float)
    (fanState : FanState) : FanState * Action :=
  if gt_int currentTemp (ON_THRESHOLD cfg) && negb (value fanState)
  then (On, turnOn)
  else if value fanState && lt_int currentTemp (OFF_THRESHOLD cfg)
  then (Off, turnOff)
  else (fanState, none).

(** [a and b], where [b] is evaluated only when [a] is true. *)
Definition and_then (a : M bool) (b : M bool) : M bool :=
  x <- a ;; if x then b else ret false.

(** The loop body after the temperature is known. *)
Definition act (cfg : Config) (temp : float) : M unit :=
  logger_info (CpuTemp temp) ;;
  turn_on <- and_then (ret (gt_int temp (ON_THRESHOLD cfg)))
                      (v <- fan_value ;; ret (negb v)) ;;
  (if turn_on then
     logger_warning (Text "Turning on Fan") ;;
     fan_on
   else
     turn_off <- and_then fan_value
                          (ret (lt_int temp (OFF_THRESHOLD cfg))) ;;
     if turn_off then
       logger_warning (Text "Turning off Fan") ;;
       fan_off
     else ret tt) ;;
  time_sleep (SLEEP_INTERVAL cfg).

(** One iteration of [while True]. *)
Definition poll (cfg : Config) : M unit :=
  temp <- get_temp ;;
  act cfg temp.

(** [while True]: the loop never ends by itself.  [loop cfg n] runs
    at most [n] iterations; it returns when all of them completed
    (the script is then still looping) and raises when one raised. *)
Fixpoint loop (cfg : Config) (n : nat) : M unit :=
  match n with
  | O => ret tt
  | S k => poll cfg ;; loop cfg k
  end.

(** [main], observed over at most [n] iterations of its loop;
    [debug] is the [--debug] flag, as [parse_args] returned it, and
    the log file is taken to open. *)
Definition main (cfg : Config) (debug : bool) (n : nat) : M unit :=
  setup_logger cfg debug ;;
  if OFF_THRESHOLD cfg >=? ON_THRESHOLD cfg
  then raise (RuntimeError "OFF_THRESHOLD must be less than ON_THRESHOLD")
  else
    OutputDevice (GPIO_PIN cfg) ;;
    loop cfg n.

(** The calls made on the fan among some events. *)
Fixpoint actuations (evs : list Event) : list Action :=
  match evs with
  | [] => []
  | FanOn :: rest => turnOn :: actuations rest
  | FanOff :: rest => turnOff :: actuations rest
  | _ :: rest => actuations rest
  end.

(** The events that poll the hardware: sensor runs, device set-up,
    reads of and calls on the fan. *)
Definition is_polling (e : Event) : bool :=
  match e with
  | RunVcgencmd | OpenDevice _ | ReadFan | FanOn | FanOff => true
  | AddHandler _ | Log _ _ | Sleep _ => false
  end.

(** The world after the fan was left in state [s] and the events [evs]
    happened. *)
Definition after (w : World) (s : FanState) (evs : list Event) : World :=
  {| replies := replies w; runs := runs w; fan := s;
     trace := trace w ++ evs |}.

(** The calls on the fan that an action stands for. *)
Definition calls (a : Action) : list Action :=
  match a with
  | none => []
  | _ => [a]
  end.

(** The events of the loop body once the temperature is known. *)
Definition act_events (cfg : Config) (t : float) (s : FanState)
  : list Event :=
  Log INFO (CpuTemp t)
  :: (if gt_int t (ON_THRESHOLD cfg) then [ReadFan] else [])
  ++ match snd (pollOnce cfg t s) with
     | turnOn => [Log WARNING (Text "Turning on Fan"); FanOn]
     | turnOff => [ReadFan; Log WARNING (Text "Turning off Fan"); FanOff]
     | none => [ReadFan]
     end
  ++ [Sleep (SLEEP_INTERVAL cfg)].

(** A world in which nothing happened yet: [vcgencmd] prints [reply]
    at every run and the fan is in state [s]. *)
Definition world (reply : string) (s : FanState) : World :=
  {| replies := fun _ => reply; runs := 0; fan := s; trace := [] |}.

(** The world [w] after [k] more runs of the sensor, with the fan left
    in state [s] and the events [evs] added. *)
Definition advance (w : World) (k : nat) (s : FanState) (evs : list Event)
  : World :=
  {| replies := replies w; runs := k + runs w; fan := s;
     trace := trace w ++ evs |}.

(** The durations of the sleeps among some events. *)
Fixpoint sleeps (evs : list Event) : list Z :=
  match evs with
  | [] => []
  | Sleep seconds :: rest => seconds :: sleeps rest
  | _ :: rest => sleeps rest
  end.

(** The state in which a sequence of calls leaves a fan that was in
    state [s]. *)
Fixpoint final (s : FanState) (l : list Action) : FanState :=
  match l with
  | [] => s
  | turnOn :: rest => final On rest
  | turnOff :: rest => final Off rest
  | none :: rest => final s rest
  end.

(** Every call of [l] changes the state of a fan that starts in state
    [s]: [fan.on()] comes only when the fan is off and [fan.off()] only
    when it is on. *)
Fixpoint alternates (s : FanState) (l : list Action) : bool :=
  match l with
  | [] => true
  | turnOn :: rest => negb (value s) && alternates On rest
  | turnOff :: rest => value s && alternates Off rest
  | none :: rest => false
  end.

(** The events of the start of [main]: handlers added to the logger
    and output devices created. *)
Definition is_setup (e : Event) : bool :=
  match e with
  | AddHandler _ | OpenDevice _ => true
  | _ => false
  end.

(** The calls on the fan that the warnings of the log announce. *)
Fixpoint announced (evs : list Event) : list Action :=
  match evs with
  | [] => []
  | Log WARNING (Text s) :: rest =>
      (if String.eqb s "Turning on Fan" then turnOn
       else if String.eqb s "Turning off Fan" then turnOff
       else none) :: announced rest
  | _ :: rest => announced rest
  end.

End FanControl.

(* ===================================================================== *)
(** * Properties *)
(* ===================================================================== *)

Import Py FanControl.

(** ** Mixed comparison *)

Section Comparison.

Variables (x : float) (n : Z).

Lemma gt_int_compare : gt_int x n = true <-> compare_int x n = Some Gt.
Proof.
  unfold gt_int. destruct (compare_int x n) as [[ | | ]|]; split; congruence.
Qed.

Lemma lt_int_compare : lt_int x n = true <-> compare_int x n = Some Lt.
Proof.
  unfold lt_int. destruct (compare_int x n) as [[ | | ]|]; split; congruence.
Qed.

Lemma eq_int_compare : eq_int x n = true <-> compare_int x n = Some Eq.
Proof.
  unfold eq_int. destruct (compare_int x n) as [[ | | ]|]; split; congruence.
Qed.

(** At most one of [x > n], [x < n] and [x == n] holds. *)
Lemma gt_int_not_lt : gt_int x n = true -> lt_int x n = false.
Proof.
  unfold gt_int, lt_int. destruct (compare_int x n) as [[ | | ]|]; congruence.
Qed.

Lemma lt_int_not_gt : lt_int x n = true -> gt_int x n = false.
Proof.
  unfold gt_int, lt_int. destruct (compare_int x n) as [[ | | ]|]; congruence.
Qed.

Lemma eq_int_not_gt : eq_int x n = true -> gt_int x n = false.
Proof.
  unfold gt_int, eq_int. destruct (compare_int x n) as [[ | | ]|]; congruence.
Qed.

Lemma eq_int_not_lt : eq_int x n = true -> lt_int x n = false.
Proof.
  unfold lt_int, eq_int. destruct (compare_int x n) as [[ | | ]|]; congruence.
Qed.

End Comparison.

(** The exact comparison is monotone in the integer: a float above
    [hi] is not below any [lo < hi]. *)
Lemma compare_int_gt_mono (x : float) (lo hi : Z) :
  lo < hi -> compare_int x hi = Some Gt -> compare_int x lo = Some Gt.
Proof.
  intros Hlt. destruct x as [s|s| |s m e]; unfold compare_int.
  - intros H. f_equal. apply Z.compare_gt_iff.
    assert (H' : (0 ?= hi) = Gt) by congruence.
    apply Z.compare_gt_iff in H'. lia.
  - trivial.
  - discriminate.
  - destruct e as [|k|k]; intros H; f_equal; apply Z.compare_gt_iff.
    + assert (H' : ((if s then Z.neg m else Z.pos m) * 2 ^ 0 ?= hi) = Gt)
        by congruence.
      apply Z.compare_gt_iff in H'. lia.
    + assert (H' : ((if s then Z.neg m else Z.pos m) * 2 ^ Z.pos k ?= hi)
                   = Gt) by congruence.
      apply Z.compare_gt_iff in H'. lia.
    + assert (H' : ((if s then Z.neg m else Z.pos m) ?= hi * 2 ^ Z.pos k)
                   = Gt) by congruence.
      apply Z.compare_gt_iff in H'.
      assert (0 < 2 ^ Z.pos k) by (apply Z.pow_pos_nonneg; lia). nia.
Qed.

Lemma compare_int_lt_mono (x : float) (lo hi : Z) :
  lo < hi -> compare_int x lo = Some Lt -> compare_int x hi = Some Lt.
Proof.
  intros Hlt. destruct x as [s|s| |s m e]; unfold compare_int.
  - intros H. f_equal. change (0 < hi).
    assert (H' : 0 < lo) by (unfold Z.lt; congruence). lia.
  - trivial.
  - discriminate.
  - destruct e as [|k|k]; intros H; f_equal.
    + change ((if s then Z.neg m else Z.pos m) * 2 ^ 0 < hi).
      assert (H' : (if s then Z.neg m else Z.pos m) * 2 ^ 0 < lo)
        by (unfold Z.lt; congruence).
      lia.
    + change ((if s then Z.neg m else Z.pos m) * 2 ^ Z.pos k < hi).
      assert (H' : (if s then Z.neg m else Z.pos m) * 2 ^ Z.pos k < lo)
        by (unfold Z.lt; congruence).
      lia.
    + change ((if s then Z.neg m else Z.pos m) < hi * 2 ^ Z.pos k).
      assert (H' : (if s then Z.neg m else Z.pos m) < lo * 2 ^ Z.pos k)
        by (unfold Z.lt; congruence).
      assert (0 < 2 ^ Z.pos k) by (apply Z.pow_pos_nonneg; lia). nia.
Qed.

Lemma gt_int_above (x : float) (lo hi : Z) :
  lo < hi -> gt_int x hi = true -> lt_int x lo = false.
Proof.
  intros Hlt H. apply gt_int_not_lt. apply gt_int_compare.
  apply gt_int_compare in H. eauto using compare_int_gt_mono.
Qed.

Lemma lt_int_below (x : float) (lo hi : Z) :
  lo < hi -> lt_int x lo = true -> gt_int x hi = false.
Proof.
  intros Hlt H. apply lt_int_not_gt. apply lt_int_compare.
  apply lt_int_compare in H. eauto using compare_int_lt_mono.
Qed.

(** ** The loop body and [pollOnce] *)

(** The loop body never raises once the temperature is known; it
    leaves the fan in the state [pollOnce] returns and calls the fan
    as the action [pollOnce] returns says. *)
Lemma act_pollOnce (cfg : Config) (t : float) (w : World) :
  act cfg t w =
    (Return tt, after w (fst (pollOnce cfg t (fan w)))
                        (act_events cfg t (fan w))).
Proof.
  destruct w as [rp rn f tr].
  unfold act, act_events, pollOnce, after, and_then, seq, ret, logger_info,
    logger_warning, fan_value, fan_on, fan_off, time_sleep, emit, set_fan.
  cbn [replies runs fan trace].
  destruct (gt_int t (ON_THRESHOLD cfg)), f; cbn;
    try destruct (lt_int t (OFF_THRESHOLD cfg)); cbn;
    repeat rewrite <- app_assoc; reflexivity.
Qed.

Lemma actuations_act_events (cfg : Config) (t : float) (s : FanState) :
  actuations (act_events cfg t s) = calls (snd (pollOnce cfg t s)).
Proof.
  unfold act_events, pollOnce.
  destruct (gt_int t (ON_THRESHOLD cfg)), s; cbn;
    try destruct (lt_int t (OFF_THRESHOLD cfg)); reflexivity.
Qed.

Lemma act_returns (cfg : Config) (t : float) (w : World) :
  exists evs,
    act cfg t w = (Return tt, after w (fst (pollOnce cfg t (fan w))) evs)
    /\ actuations evs = calls (snd (pollOnce cfg t (fan w))).
Proof.
  exists (act_events cfg t (fan w)). split.
  - apply act_pollOnce.
  - apply actuations_act_events.
Qed.

(** ** One poll: the hysteresis *)

(** C1 (turn-on trigger).  When the temperature is above
    [ON_THRESHOLD] and the fan is off, the decision is to switch the
    fan on, and the loop body then leaves the fan on after exactly one
    call on it, [fan.on()]. *)
Theorem pollOnce_turn_on (cfg : Config) (t : float) (w : World) :
  gt_int t (ON_THRESHOLD cfg) = true ->
  fan w = Off ->
  pollOnce cfg t Off = (On, turnOn)
  /\ exists evs, act cfg t w = (Return tt, after w On evs)
                 /\ actuations evs = [turnOn].
Proof.
  intros Hgt Hfan.
  assert (Hp : pollOnce cfg t Off = (On, turnOn)).
  { unfold pollOnce. rewrite Hgt. reflexivity. }
  split; [exact Hp|].
  destruct (act_returns cfg t w) as [evs [Hact Hcalls]].
  rewrite Hfan, Hp in Hact, Hcalls. exists evs. split; assumption.
Qed.

Lemma pollOnce_turn_on_witness :
  gt_int (float_of_int 70) (ON_THRESHOLD script_config) = true
  /\ fan (world "temp=70.0'C" Off) = Off
  /\ pollOnce script_config (float_of_int 70) Off = (On, turnOn)
  /\ exists evs,
       act script_config (float_of_int 70) (world "temp=70.0'C" Off)
       = (Return tt, after (world "temp=70.0'C" Off) On evs)
       /\ actuations evs = [turnOn].
Proof.
  split; [reflexivity|]. split; [reflexivity|].
  apply (pollOnce_turn_on script_config (float_of_int 70)
                          (world "temp=70.0'C" Off)); reflexivity.
Defined.

(** C2 (turn-off trigger).  When the temperature is below
    [OFF_THRESHOLD] and the fan is on, the decision is to switch the
    fan off, and the loop body then leaves the fan off after exactly
    one call on it, [fan.off()]. *)
Theorem pollOnce_turn_off (cfg : Config) (t : float) (w : World) :
  lt_int t (OFF_THRESHOLD cfg) = true ->
  fan w = On ->
  pollOnce cfg t On = (Off, turnOff)
  /\ exists evs, act cfg t w = (Return tt, after w Off evs)
                 /\ actuations evs = [turnOff].
Proof.
  intros Hlt Hfan.
  assert (Hp : pollOnce cfg t On = (Off, turnOff)).
  { unfold pollOnce. rewrite Hlt. cbn [value negb].
    rewrite andb_false_r. reflexivity. }
  split; [exact Hp|].
  destruct (act_returns cfg t w) as [evs [Hact Hcalls]].
  rewrite Hfan, Hp in Hact, Hcalls. exists evs. split; assumption.
Qed.

Lemma pollOnce_turn_off_witness :
  lt_int (float_of_int 50) (OFF_THRESHOLD script_config) = true
  /\ fan (world "temp=50.0'C" On) = On
  /\ pollOnce script_config (float_of_int 50) On = (Off, turnOff)
  /\ exists evs,
       act script_config (float_of_int 50) (world "temp=50.0'C" On)
       = (Return tt, after (world "temp=50.0'C" On) Off evs)
       /\ actuations evs = [turnOff].
Proof.
  split; [reflexivity|]. split; [reflexivity|].
  apply (pollOnce_turn_off script_config (float_of_int 50)
                           (world "temp=50.0'C" On)); reflexivity.
Defined.

(** C3 (dead band).  When the temperature is strictly between
    [OFF_THRESHOLD] and [ON_THRESHOLD], the decision keeps the fan as
    it is, whatever its state, and the loop body makes no call on the
    fan. *)
Theorem pollOnce_dead_band (cfg : Config) (t : float) (s : FanState)
    (w : World) :
  gt_int t (OFF_THRESHOLD cfg) = true ->
  lt_int t (ON_THRESHOLD cfg) = true ->
  pollOnce cfg t s = (s, none)
  /\ exists evs, act cfg t w = (Return tt, after w (fan w) evs)
                 /\ actuations evs = [].
Proof.
  intros Hgt Hlt.
  assert (Hp : forall s0, pollOnce cfg t s0 = (s0, none)).
  { intros s0. unfold pollOnce.
    rewrite (lt_int_not_gt _ _ Hlt), (gt_int_not_lt _ _ Hgt).
    cbn [andb]. rewrite andb_false_r. reflexivity. }
  split; [apply Hp|].
  destruct (act_returns cfg t w) as [evs [Hact Hcalls]].
  rewrite Hp in Hact, Hcalls. exists evs. split; assumption.
Qed.

Lemma pollOnce_dead_band_witness :
  gt_int (float_of_int 60) (OFF_THRESHOLD script_config) = true
  /\ lt_int (float_of_int 60) (ON_THRESHOLD script_config) = true
  /\ pollOnce script_config (float_of_int 60) On = (On, none)
  /\ exists evs,
       act script_config (float_of_int 60) (world "temp=60.0'C" On)
       = (Return tt,
          after (world "temp=60.0'C" On) (fan (world "temp=60.0'C" On)) evs)
       /\ actuations evs = [].
Proof.
  split; [reflexivity|]. split; [reflexivity|].
  apply (pollOnce_dead_band script_config (float_of_int 60) On
                            (world "temp=60.0'C" On)); reflexivity.
Defined.

(** C4 (boundaries).  A temperature equal to [ON_THRESHOLD] does not
    switch an idle fan on, and a temperature equal to [OFF_THRESHOLD]
    does not switch a running fan off: both comparisons are strict. *)
Theorem pollOnce_boundary (cfg : Config) (t : float) :
  (eq_int t (ON_THRESHOLD cfg) = true -> pollOnce cfg t Off = (Off, none))
  /\ (eq_int t (OFF_THRESHOLD cfg) = true -> pollOnce cfg t On = (On, none)).
Proof.
  split; intros Heq; unfold pollOnce.
  - rewrite (eq_int_not_gt _ _ Heq). reflexivity.
  - rewrite (eq_int_not_lt _ _ Heq). cbn [value negb].
    rewrite andb_false_r. reflexivity.
Qed.

Lemma pollOnce_boundary_witness :
  eq_int (float_of_int 65) (ON_THRESHOLD script_config) = true
  /\ pollOnce script_config (float_of_int 65) Off = (Off, none)
  /\ eq_int (float_of_int 55) (OFF_THRESHOLD script_config) = true
  /\ pollOnce script_config (float_of_int 55) On = (On, none).
Proof.
  split; [reflexivity|]. split.
  - apply (proj1 (pollOnce_boundary script_config (float_of_int 65))).
    reflexivity.
  - split; [reflexivity|].
    apply (proj2 (pollOnce_boundary script_config (float_of_int 55))).
    reflexivity.
Defined.

(** C7 (steady temperature).  With [OFF_THRESHOLD] below
    [ON_THRESHOLD], the condition [main] checks before it loops, a
    second decision at the same temperature, taken in the state the
    first one returned, keeps that state and calls for no action. *)
Theorem pollOnce_idempotent (cfg : Config) (t : float) (s s' : FanState)
    (a : Action) :
  OFF_THRESHOLD cfg < ON_THRESHOLD cfg ->
  pollOnce cfg t s = (s', a) ->
  pollOnce cfg t s' = (s', none).
Proof.
  intros Hcfg. unfold pollOnce.
  destruct (gt_int t (ON_THRESHOLD cfg)) eqn:Hgt.
  - rewrite (gt_int_above _ _ _ Hcfg Hgt).
    destruct s; cbn; intros [= <- <-]; reflexivity.
  - destruct (lt_int t (OFF_THRESHOLD cfg)) eqn:Hlt;
      destruct s; cbn; intros [= <- <-]; cbn; rewrite ?Hgt; reflexivity.
Qed.

Lemma pollOnce_idempotent_witness :
  OFF_THRESHOLD script_config < ON_THRESHOLD script_config
  /\ pollOnce script_config (float_of_int 70) Off = (On, turnOn)
  /\ pollOnce script_config (float_of_int 70) On = (On, none).
Proof.
  split; [reflexivity|]. split; [reflexivity|].
  apply (pollOnce_idempotent script_config (float_of_int 70) Off On turnOn);
    reflexivity.
Defined.

(** C8 (totality).  For every float, finite or not, and both fan
    states the decision is defined: it yields a state and one of the
    three actions, and the loop body that carries it out returns
    without raising. *)
Theorem pollOnce_total (cfg : Config) (t : float) (s : FanState)
    (w : World) :
  (exists s' a, pollOnce cfg t s = (s', a)
                /\ (a = turnOn \/ a = turnOff \/ a = none))
  /\ fst (act cfg t w) = Return tt.
Proof.
  split.
  - destruct (pollOnce cfg t s) as [s' a]. exists s', a.
    split; [reflexivity|]. destruct a; auto.
  - rewrite act_pollOnce. reflexivity.
Qed.

(** Readings that are not finite are compared like any other: a NaN
    is neither above nor below a threshold, an infinity is. *)
Example pollOnce_nan :
  pollOnce script_config nan Off = (Off, none)
  /\ pollOnce script_config nan On = (On, none).
Proof. split; reflexivity. Qed.

Example pollOnce_inf :
  is_finite inf = false
  /\ pollOnce script_config inf Off = (On, turnOn)
  /\ pollOnce script_config (S754_infinity true) On = (Off, turnOff).
Proof. repeat split. Qed.

(** C9 (state and action agree).  The action is [turnOn] exactly when
    the fan goes from off to on, [turnOff] exactly when it goes from
    on to off, and [none] exactly when its state is kept; the loop
    body makes the calls of that action and no other. *)
Theorem pollOnce_action_consistent (cfg : Config) (t : float)
    (s : FanState) (w : World) :
  let s' := fst (pollOnce cfg t s) in
  let a := snd (pollOnce cfg t s) in
  (a = turnOn <-> s = Off /\ s' = On)
  /\ (a = turnOff <-> s = On /\ s' = Off)
  /\ (a = none <-> s' = s)
  /\ exists evs,
       act cfg t w = (Return tt, after w (fst (pollOnce cfg t (fan w))) evs)
       /\ actuations evs = calls (snd (pollOnce cfg t (fan w))).
Proof.
  cbv zeta. split; [|split; [|split]].
  - unfold pollOnce.
    destruct (gt_int t (ON_THRESHOLD cfg)), (lt_int t (OFF_THRESHOLD cfg)),
      s; cbn; intuition congruence.
  - unfold pollOnce.
    destruct (gt_int t (ON_THRESHOLD cfg)), (lt_int t (OFF_THRESHOLD cfg)),
      s; cbn; intuition congruence.
  - unfold pollOnce.
    destruct (gt_int t (ON_THRESHOLD cfg)), (lt_int t (OFF_THRESHOLD cfg)),
      s; cbn; intuition congruence.
  - apply act_returns.
Qed.

(** ** [main] *)

(** The events of [setup_logger]. *)
Lemma setup_logger_run (cfg : Config) (debug : bool) (w : World) :
  setup_logger cfg debug w =
    (Return tt,
     after w (fan w)
       (AddHandler (FileHandler (LOG_FILENAME cfg))
        :: if debug then [AddHandler StreamHandler] else [])).
Proof.
  destruct w as [rp rn f tr].
  unfold setup_logger, seq, emit, ret, after. cbn [replies runs fan trace].
  destruct debug; cbn [replies runs fan trace];
    rewrite <- ?app_assoc; reflexivity.
Qed.

(** C5 (configuration check).  When [OFF_THRESHOLD] is not below
    [ON_THRESHOLD], [main] raises [RuntimeError] whatever number of
    iterations is observed: the sensor was never run, the fan is as it
    was, and nothing but the set-up of the logger has happened. *)
Theorem main_rejects_thresholds (cfg : Config) (debug : bool) (n : nat)
    (w : World) :
  OFF_THRESHOLD cfg >= ON_THRESHOLD cfg ->
  exists evs,
    main cfg debug n w =
      (Raise (RuntimeError "OFF_THRESHOLD must be less than ON_THRESHOLD"),
       after w (fan w) evs)
    /\ existsb is_polling evs = false.
Proof.
  intros Hcfg.
  exists (AddHandler (FileHandler (LOG_FILENAME cfg))
          :: if debug then [AddHandler StreamHandler] else []).
  split.
  - unfold main, seq at 1. rewrite setup_logger_run.
    assert (Hb : (OFF_THRESHOLD cfg >=? ON_THRESHOLD cfg) = true)
      by (apply Z.geb_le; lia).
    rewrite Hb. reflexivity.
  - destruct debug; reflexivity.
Qed.

Lemma main_rejects_thresholds_witness :
  OFF_THRESHOLD {| ON_THRESHOLD := 55; OFF_THRESHOLD := 55;
                   SLEEP_INTERVAL := 5; GPIO_PIN := 23;
                   LOG_FILENAME := "/var/log/fan_control.log" |}
  >= ON_THRESHOLD {| ON_THRESHOLD := 55; OFF_THRESHOLD := 55;
                     SLEEP_INTERVAL := 5; GPIO_PIN := 23;
                     LOG_FILENAME := "/var/log/fan_control.log" |}
  /\ exists evs,
       main {| ON_THRESHOLD := 55; OFF_THRESHOLD := 55;
               SLEEP_INTERVAL := 5; GPIO_PIN := 23;
               LOG_FILENAME := "/var/log/fan_control.log" |}
            true 3 (world "temp=70.0'C" On)
       = (Raise (RuntimeError "OFF_THRESHOLD must be less than ON_THRESHOLD"),
          after (world "temp=70.0'C" On) (fan (world "temp=70.0'C" On)) evs)
       /\ existsb is_polling evs = false.
Proof.
  split; [cbn; lia|].
  apply (main_rejects_thresholds
           {| ON_THRESHOLD := 55; OFF_THRESHOLD := 55;
              SLEEP_INTERVAL := 5; GPIO_PIN := 23;
              LOG_FILENAME := "/var/log/fan_control.log" |}
           true 3 (world "temp=70.0'C" On)).
  cbn. lia.
Defined.

(** [get_temp] runs the sensor once and parses its output. *)
Lemma get_temp_run (w : World) :
  get_temp w =
    (get_temp_parse (replies w (runs w)),
     {| replies := replies w; runs := S (runs w); fan := fan w;
        trace := trace w ++ [RunVcgencmd] |}).
Proof.
  unfold get_temp, seq, run_vcgencmd, lift.
  destruct (get_temp_parse (replies w (runs w))); reflexivity.
Qed.

(** [get_temp] raises nothing but its own [RuntimeError]. *)
Lemma get_temp_parse_raises (temp_str : string) :
  raises (get_temp_parse temp_str) = true ->
  get_temp_parse temp_str
  = Raise (RuntimeError "Could not parse temperature output.").
Proof.
  unfold get_temp_parse, try_except_index_value, bind, getitem, float_of_str.
  destruct (nth_error (split "=" temp_str) 1) as [after_eq|]; [|reflexivity].
  destruct (nth_error (split "'" after_eq) 0) as [number|]; [|reflexivity].
  destruct (parse_float number); [discriminate|reflexivity].
Qed.

(** C10 (a failed read changes nothing).  In one iteration the sensor
    is run and its output parsed before anything else: when the
    output cannot be parsed the iteration raises, the only event it
    adds is the run of the sensor, and the fan is in the state it was
    in, no call having been made on it. *)
Theorem poll_parse_error (cfg : Config) (w : World) :
  raises (get_temp_parse (replies w (runs w))) = true ->
  exists w' evs,
    poll cfg w
    = (Raise (RuntimeError "Could not parse temperature output."), w')
    /\ fan w' = fan w
    /\ trace w' = (trace w ++ evs)%list
    /\ evs = [RunVcgencmd]
    /\ actuations evs = [].
Proof.
  intros Hraise. apply get_temp_parse_raises in Hraise.
  exists {| replies := replies w; runs := S (runs w); fan := fan w;
            trace := trace w ++ [RunVcgencmd] |}, [RunVcgencmd].
  unfold poll, get_temp, seq, run_vcgencmd, lift. rewrite Hraise.
  repeat split.
Qed.

Lemma poll_parse_error_witness :
  raises (get_temp_parse (replies (world "garbage" On)
                                  (runs (world "garbage" On)))) = true
  /\ exists w' evs,
       poll script_config (world "garbage" On)
       = (Raise (RuntimeError "Could not parse temperature output."), w')
       /\ fan w' = fan (world "garbage" On)
       /\ trace w' = (trace (world "garbage" On) ++ evs)%list
       /\ evs = [RunVcgencmd]
       /\ actuations evs = [].
Proof.
  split; [reflexivity|].
  apply (poll_parse_error script_config (world "garbage" On)). reflexivity.
Defined.

(** ** [str.split] *)

Section Split.

Variable sep : ascii.

Lemma contains_app (a b : string) :
  contains sep (a ++ b) = contains sep a || contains sep b.
Proof.
  induction a as [|c a IH]; cbn; [reflexivity|].
  rewrite IH. apply orb_assoc.
Qed.

Lemma split_nonempty (s : string) : split sep s <> [].
Proof.
  destruct s as [|c s]; cbn; [discriminate|].
  destruct (Ascii.eqb c sep); [discriminate|].
  destruct (split sep s); discriminate.
Qed.

(** The first piece is the text before the first separator, and the
    other pieces are those of the text after it. *)
Lemma split_first (s : string) :
  exists rest,
    s = hd "" (split sep s) ++ rest
    /\ contains sep (hd "" (split sep s)) = false
    /\ ((rest = "" /\ tl (split sep s) = [])
        \/ exists r, rest = String sep r /\ tl (split sep s) = split sep r).
Proof.
  induction s as [|c s IH].
  - exists "". cbn. auto.
  - cbn [split]. destruct (Ascii.eqb c sep) eqn:Hc.
    + apply Ascii.eqb_eq in Hc. subst c.
      exists (String sep s). cbn. split; [reflexivity|]. split; [reflexivity|].
      right. exists s. auto.
    + destruct IH as [rest [Hs [Hno Hrest]]].
      destruct (split sep s) as [|piece pieces] eqn:Hsplit.
      * exfalso. exact (split_nonempty s Hsplit).
      * exists rest. cbn [hd tl] in *. split; [|split].
        -- cbn. congruence.
        -- cbn. rewrite Hc. exact Hno.
        -- exact Hrest.
Qed.

(** A text without separator in front of any text. *)
Lemma split_app (p rest : string) :
  contains sep p = false ->
  split sep (p ++ rest)
  = (p ++ hd "" (split sep rest)) :: tl (split sep rest).
Proof.
  induction p as [|c p IH]; intros Hno.
  - cbn. destruct (split sep rest) eqn:Hsplit; [|reflexivity].
    exfalso. exact (split_nonempty rest Hsplit).
  - cbn in Hno. apply orb_false_iff in Hno. destruct Hno as [Hc Hp].
    cbn [append split]. rewrite Hc, (IH Hp). reflexivity.
Qed.

Lemma split_sep (r : string) : split sep (String sep r) = "" :: split sep r.
Proof. cbn. rewrite Ascii.eqb_refl. reflexivity. Qed.

Lemma append_empty_r (s : string) : s ++ "" = s.
Proof. induction s as [|c s IH]; cbn; congruence. Qed.

(** There is a second piece exactly when the separator occurs. *)
Lemma split_second_none (s : string) :
  nth_error (split sep s) 1 = None <-> contains sep s = false.
Proof.
  split.
  - intros Hnone. destruct (split_first s) as [rest [Hs [Hno Hrest]]].
    destruct Hrest as [[Hrest _]|[r [_ Htl]]].
    + subst rest. rewrite append_empty_r in Hs. congruence.
    + exfalso. destruct (split sep s) as [|piece pieces] eqn:Hsp;
        [exact (split_nonempty s Hsp)|].
      cbn in Htl, Hnone. subst pieces.
      destruct (split sep r) eqn:Hr; [|discriminate].
      exact (split_nonempty r Hr).
  - intros Hno. rewrite <- (append_empty_r s).
    rewrite (split_app s "" Hno). reflexivity.
Qed.

End Split.

Lemma string_app_assoc (a b c : string) : (a ++ b) ++ c = a ++ (b ++ c).
Proof. induction a as [|x a IH]; cbn; congruence. Qed.

Lemma nth_error_first {A} (d : A) (l : list A) :
  l <> [] -> nth_error l 0 = Some (hd d l).
Proof. destruct l; [congruence|reflexivity]. Qed.

(** ** [get_temp] *)

(** The text handed to [float] is the number field of the output. *)
Lemma number_field_split (temp_str number : string) :
  number_field temp_str number
  <-> exists after_eq,
        nth_error (split "=" temp_str) 1 = Some after_eq
        /\ hd "" (split "'" after_eq) = number.
Proof.
  split.
  - intros [before [rest [Hs [Hb [Hn1 [Hn2 Hrest]]]]]]. subst temp_str.
    rewrite (split_app "=" before _ Hb), split_sep. cbn [hd tl nth_error].
    rewrite (split_app "=" number rest Hn1). cbn [nth_error].
    eexists. split; [reflexivity|].
    rewrite (split_app "'" number _ Hn2). cbn [hd].
    assert (Hend : hd "" (split "'" (hd "" (split "=" rest))) = "").
    { destruct Hrest as [->|[r [->| ->]]].
      - reflexivity.
      - rewrite split_sep. reflexivity.
      - cbn. destruct (split "=" r); reflexivity. }
    rewrite Hend. apply append_empty_r.
  - intros [after_eq [Hnth Hhd]].
    destruct (split_first "=" temp_str) as [rest [Hs [Hb Hrest]]].
    destruct (split "=" temp_str) as [|before pieces] eqn:Hsplit;
      [discriminate|].
    cbn [hd tl] in *.
    change (nth_error pieces 0 = Some after_eq) in Hnth.
    destruct Hrest as [[_ ->]|[r [-> ->]]]; [discriminate|].
    rewrite (nth_error_first "" _ (split_nonempty "=" r)) in Hnth.
    injection Hnth as Hnth.
    destruct (split_first "=" r) as [rest2 [Hr [Hq Hrest2]]].
    rewrite Hnth in Hr, Hq.
    destruct (split_first "'" after_eq) as [rest3 [Ha [Hn2 Hrest3]]].
    rewrite Hhd in Ha, Hn2.
    exists before, (rest3 ++ rest2).
    assert (Hn1 : contains "=" number = false).
    { rewrite Ha, contains_app in Hq. apply orb_false_iff in Hq. tauto. }
    repeat split; try assumption.
    + rewrite Hs, Hr, Ha, string_app_assoc. reflexivity.
    + destruct Hrest3 as [[-> _]|[r3 [-> _]]].
      * destruct Hrest2 as [[-> _]|[r2 [-> _]]]; [left; reflexivity|].
        right. exists r2. left. reflexivity.
      * right. exists (r3 ++ rest2). right. reflexivity.
Qed.

(** What [get_temp] does with an output, by cases on its pieces. *)
Lemma get_temp_parse_cases (temp_str : string) :
  get_temp_parse temp_str =
    match nth_error (split "=" temp_str) 1 with
    | None => Raise (RuntimeError "Could not parse temperature output.")
    | Some after_eq =>
        match parse_float (hd "" (split "'" after_eq)) with
        | Some x => Return x
        | None => Raise (RuntimeError "Could not parse temperature output.")
        end
    end.
Proof.
  unfold get_temp_parse, try_except_index_value, bind, getitem, float_of_str.
  destruct (nth_error (split "=" temp_str) 1) as [after_eq|]; [|reflexivity].
  rewrite (nth_error_first "" _ (split_nonempty "'" after_eq)).
  destruct (parse_float (hd "" (split "'" after_eq))); reflexivity.
Qed.

(** The binary64 value nearest to 45.2: it is [m * 2^-47] with
    [|m * 2^-47 - 45.2|] no more than half a unit in the last place. *)
Lemma nearest_45_2 :
  parse_float "45.2" = Some (S754_finite false 6361334473660826 (-47))
  /\ valid_binary prec emax (S754_finite false 6361334473660826 (-47)) = true
  /\ Z.abs (10 * 6361334473660826 - 452 * 2 ^ 47) <= 5.
Proof. repeat split; vm_compute; congruence. Qed.

(** C6 (the parser), as the script has it.  [get_temp] returns
    [float(number)] where [number] is the text after the first ['=']
    of the output up to the next ['='] or quote, or to the end; it
    raises [RuntimeError] exactly when the output has no ['='] or
    [float] rejects that text.  So ["temp=45.2'C\n"] gives 45.2 and
    ["garbage"] raises. *)
Theorem get_temp_parse_spec :
  (forall temp_str x,
     get_temp_parse temp_str = Return x
     <-> exists number,
           number_field temp_str number /\ parse_float number = Some x)
  /\ (forall temp_str,
        get_temp_parse temp_str
        = Raise (RuntimeError "Could not parse temperature output.")
        <-> contains "=" temp_str = false
            \/ exists number,
                 number_field temp_str number /\ parse_float number = None)
  /\ get_temp_parse ("temp=45.2'C" ++ LF)
     = Return (S754_finite false 6361334473660826 (-47))
  /\ get_temp_parse "garbage"
     = Raise (RuntimeError "Could not parse temperature output.").
Proof.
  split; [|split; [|split; reflexivity]].
  - intros temp_str x. rewrite get_temp_parse_cases. split.
    + destruct (nth_error (split "=" temp_str) 1) as [after_eq|] eqn:Hnth;
        [|discriminate].
      destruct (parse_float (hd "" (split "'" after_eq))) as [y|] eqn:Hf;
        [|discriminate].
      intros [= <-]. exists (hd "" (split "'" after_eq)).
      split; [|exact Hf]. apply number_field_split. eauto.
    + intros [number [Hfield Hf]].
      apply number_field_split in Hfield.
      destruct Hfield as [after_eq [-> <-]]. rewrite Hf. reflexivity.
  - intros temp_str. rewrite get_temp_parse_cases. split.
    + destruct (nth_error (split "=" temp_str) 1) as [after_eq|] eqn:Hnth.
      * destruct (parse_float (hd "" (split "'" after_eq))) as [y|] eqn:Hf;
          [discriminate|].
        intros _. right. exists (hd "" (split "'" after_eq)).
        split; [|exact Hf]. apply number_field_split. eauto.
      * intros _. left. apply split_second_none. exact Hnth.
    + intros [Hno|[number [Hfield Hf]]].
      * apply split_second_none in Hno. rewrite Hno. reflexivity.
      * apply number_field_split in Hfield.
        destruct Hfield as [after_eq [-> <-]]. rewrite Hf. reflexivity.
Qed.

(** C6 as worded fails: an output that lacks the quote is parsed all
    the same. *)
Lemma get_temp_parse_without_quote :
  ~ (contains "'" "temp=45.2" = false ->
     raises (get_temp_parse "temp=45.2") = true).
Proof.
  intros H. specialize (H eq_refl). vm_compute in H. discriminate.
Qed.

(* ===================================================================== *)
(** * The loop as a whole *)
(* ===================================================================== *)

(** ** Worlds and events *)

Lemma advance_advance (w : World) (k1 k2 : nat) (s1 s2 : FanState)
    (e1 e2 : list Event) :
  advance (advance w k1 s1 e1) k2 s2 e2
  = advance w (k2 + k1) s2 (e1 ++ e2).
Proof.
  unfold advance. cbn [replies runs fan trace].
  rewrite Nat.add_assoc, app_assoc. reflexivity.
Qed.

Lemma after_advance (w : World) (s : FanState) (evs : list Event) :
  after w s evs = advance w 0 s evs.
Proof. reflexivity. Qed.

Lemma actuations_app (a b : list Event) :
  actuations (a ++ b) = (actuations a ++ actuations b)%list.
Proof.
  induction a as [|e a IH]; [reflexivity|].
  destruct e; cbn; rewrite ?IH; reflexivity.
Qed.

Lemma sleeps_app (a b : list Event) :
  sleeps (a ++ b) = (sleeps a ++ sleeps b)%list.
Proof.
  induction a as [|e a IH]; [reflexivity|].
  destruct e; cbn; rewrite ?IH; reflexivity.
Qed.

Lemma final_app (s : FanState) (a b : list Action) :
  final s (a ++ b) = final (final s a) b.
Proof.
  revert s. induction a as [|x a IH]; intros s; [reflexivity|].
  destruct x; cbn; apply IH.
Qed.

Lemma alternates_app (s : FanState) (a b : list Action) :
  alternates s (a ++ b) = alternates s a && alternates (final s a) b.
Proof.
  revert s. induction a as [|x a IH]; intros s; [reflexivity|].
  destruct x; cbn; rewrite ?IH, ?andb_assoc; reflexivity.
Qed.

Lemma sleeps_act_events (cfg : Config) (t : float) (s : FanState) :
  sleeps (act_events cfg t s) = [SLEEP_INTERVAL cfg].
Proof.
  unfold act_events, pollOnce.
  destruct (gt_int t (ON_THRESHOLD cfg)), s; cbn;
    try destruct (lt_int t (OFF_THRESHOLD cfg)); reflexivity.
Qed.

(** One decision changes the state whenever it calls the fan. *)
Lemma pollOnce_alternates (cfg : Config) (t : float) (s : FanState) :
  alternates s (calls (snd (pollOnce cfg t s))) = true
  /\ final s (calls (snd (pollOnce cfg t s))) = fst (pollOnce cfg t s).
Proof.
  unfold pollOnce.
  destruct (gt_int t (ON_THRESHOLD cfg)), (lt_int t (OFF_THRESHOLD cfg)), s;
    cbn; split; reflexivity.
Qed.

(** A second decision at the same temperature, with thresholds in
    order, keeps the state the first one chose. *)
Lemma pollOnce_settled (cfg : Config) (t : float) (s : FanState) :
  OFF_THRESHOLD cfg < ON_THRESHOLD cfg ->
  pollOnce cfg t (fst (pollOnce cfg t s)) = (fst (pollOnce cfg t s), none).
Proof.
  intros Hcfg. unfold pollOnce.
  destruct (gt_int t (ON_THRESHOLD cfg)) eqn:Hgt.
  - pose proof (gt_int_above _ _ _ Hcfg Hgt) as Hlt.
    destruct s; cbn; rewrite ?Hgt, ?Hlt; reflexivity.
  - destruct (lt_int t (OFF_THRESHOLD cfg)) eqn:Hlt;
      destruct s; cbn; rewrite ?Hgt, ?Hlt; reflexivity.
Qed.

(** ** One iteration and the loop, step by step *)

Lemma poll_cases (cfg : Config) (w : World) :
  poll cfg w =
    match get_temp_parse (replies w (runs w)) with
    | Return t =>
        (Return tt,
         advance w 1 (fst (pollOnce cfg t (fan w)))
                 (RunVcgencmd :: act_events cfg t (fan w)))
    | Raise e => (Raise e, advance w 1 (fan w) [RunVcgencmd])
    end.
Proof.
  unfold poll, seq at 1. rewrite get_temp_run.
  destruct (get_temp_parse (replies w (runs w))) as [t|e]; [|reflexivity].
  rewrite act_pollOnce. unfold after, advance. cbn [replies runs fan trace].
  rewrite <- app_assoc. reflexivity.
Qed.

Lemma loop_step (cfg : Config) (n : nat) (w : World) :
  loop cfg (S n) w =
    match get_temp_parse (replies w (runs w)) with
    | Return t =>
        loop cfg n
          (advance w 1 (fst (pollOnce cfg t (fan w)))
                   (RunVcgencmd :: act_events cfg t (fan w)))
    | Raise e => (Raise e, advance w 1 (fan w) [RunVcgencmd])
    end.
Proof.
  cbn [loop]. unfold seq at 1. rewrite poll_cases.
  destruct (get_temp_parse (replies w (runs w))); reflexivity.
Qed.

Lemma advance_refl (w : World) : w = advance w 0 (fan w) [].
Proof.
  destruct w as [rp rn f tr]. unfold advance. cbn [replies runs fan trace].
  rewrite app_nil_r. reflexivity.
Qed.

(** What [main] does before its loop when the thresholds are in
    order. *)
Lemma main_valid (cfg : Config) (debug : bool) (n : nat) (w : World) :
  OFF_THRESHOLD cfg < ON_THRESHOLD cfg ->
  main cfg debug n w =
    loop cfg n
      (advance w 0 Off
         ((AddHandler (FileHandler (LOG_FILENAME cfg))
           :: if debug then [AddHandler StreamHandler] else [])
          ++ [OpenDevice (GPIO_PIN cfg)])).
Proof.
  intros Hcfg. unfold main, seq at 1. rewrite setup_logger_run.
  assert (Hb : (OFF_THRESHOLD cfg >=? ON_THRESHOLD cfg) = false)
    by (rewrite Z.geb_leb; apply Z.leb_gt; lia).
  rewrite Hb. unfold seq at 1, OutputDevice, seq, emit, set_fan, after, advance.
  cbn [replies runs fan trace]. rewrite <- app_assoc. reflexivity.
Qed.

(** What [main] does when the thresholds are out of order. *)
Lemma main_invalid (cfg : Config) (debug : bool) (n : nat) (w : World) :
  OFF_THRESHOLD cfg >= ON_THRESHOLD cfg ->
  main cfg debug n w =
    (Raise (RuntimeError "OFF_THRESHOLD must be less than ON_THRESHOLD"),
     advance w 0 (fan w)
       (AddHandler (FileHandler (LOG_FILENAME cfg))
        :: if debug then [AddHandler StreamHandler] else [])).
Proof.
  intros Hcfg. unfold main, seq at 1. rewrite setup_logger_run.
  assert (Hb : (OFF_THRESHOLD cfg >=? ON_THRESHOLD cfg) = true)
    by (apply Z.geb_le; lia).
  rewrite Hb. reflexivity.
Qed.

(** ** [get_temp] *)


(** ** When the loop stops *)






(** ** What the loop does to the sensor, the clock and the fan *)

(** X4.  The loop runs the sensor once per iteration and sleeps
    [SLEEP_INTERVAL] seconds after each iteration that completes, and
    never any other duration: after [n] completed iterations there
    were [n] runs and [n] sleeps; when an iteration raises, it is the
    one run that no sleep follows. *)
Theorem loop_accounting (cfg : Config) (n : nat) (w : World) :
  exists k s evs,
    snd (loop cfg n w) = advance w k s evs
    /\ ((fst (loop cfg n w) = Return tt
         /\ k = n /\ sleeps evs = repeat (SLEEP_INTERVAL cfg) n)
        \/ (raises (fst (loop cfg n w)) = true
            /\ (k <= n)%nat
            /\ exists j, k = S j
                         /\ sleeps evs = repeat (SLEEP_INTERVAL cfg) j)).
Proof.
  revert w. induction n as [|n IH]; intros w.
  - exists 0%nat, (fan w), []. cbn [loop ret fst snd]. split.
    + apply advance_refl.
    + left. repeat split.
  - rewrite loop_step.
    destruct (get_temp_parse (replies w (runs w))) as [t|e] eqn:Hp.
    + destruct (IH (advance w 1 (fst (pollOnce cfg t (fan w)))
                            (RunVcgencmd :: act_events cfg t (fan w))))
        as [k [s [evs [Hw Hcases]]]].
      exists (k + 1)%nat, s,
        ((RunVcgencmd :: act_events cfg t (fan w)) ++ evs)%list.
      split; [rewrite Hw; apply advance_advance|].
      rewrite sleeps_app. cbn [sleeps]. rewrite sleeps_act_events.
      destruct Hcases as [[Hret [-> Hs]]|[Hr [Hk [j [-> Hs]]]]].
      * left. split; [exact Hret|]. split; [lia|]. rewrite Hs. reflexivity.
      * right. split; [exact Hr|]. split; [lia|]. exists (S j).
        split; [lia|]. rewrite Hs. reflexivity.
    + exists 1%nat, (fan w), [RunVcgencmd]. cbn [fst snd]. split; [reflexivity|].
      right. split; [reflexivity|]. split; [lia|]. exists 0%nat.
      split; reflexivity.
Qed.

Lemma loop_calls_alternate (cfg : Config) (n : nat) (w : World) :
  exists k evs,
    snd (loop cfg n w) = advance w k (final (fan w) (actuations evs)) evs
    /\ alternates (fan w) (actuations evs) = true.
Proof.
  revert w. induction n as [|n IH]; intros w.
  - exists 0%nat, []. cbn [loop ret snd actuations final alternates].
    split; [apply advance_refl|reflexivity].
  - rewrite loop_step.
    destruct (get_temp_parse (replies w (runs w))) as [t|e] eqn:Hp.
    + destruct (IH (advance w 1 (fst (pollOnce cfg t (fan w)))
                            (RunVcgencmd :: act_events cfg t (fan w))))
        as [k [evs [Hw Halt]]].
      cbn [advance fan] in Hw, Halt.
      destruct (pollOnce_alternates cfg t (fan w)) as [Ha Hf].
      exists (k + 1)%nat,
        ((RunVcgencmd :: act_events cfg t (fan w)) ++ evs)%list.
      rewrite actuations_app. cbn [actuations].
      rewrite actuations_act_events, final_app, alternates_app, Hf, Ha.
      split; [rewrite Hw; apply advance_advance|exact Halt].
    + exists 1%nat, [RunVcgencmd]. cbn [snd]. split; reflexivity.
Qed.

(** X5.  Over a whole run of [main], every call on the fan changes
    its state: [fan.on()] is made only on a fan that is off and
    [fan.off()] only on a fan that is on, the first call, if any,
    being [fan.on()] since the device starts off.  With thresholds in
    order the fan ends in the state the last call gave it. *)
Theorem main_calls_alternate (cfg : Config) (debug : bool) (n : nat)
    (w : World) :
  exists k s evs,
    snd (main cfg debug n w) = advance w k s evs
    /\ alternates Off (actuations evs) = true
    /\ (OFF_THRESHOLD cfg < ON_THRESHOLD cfg ->
        s = final Off (actuations evs)).
Proof.
  destruct (Z_lt_ge_dec (OFF_THRESHOLD cfg) (ON_THRESHOLD cfg)) as [Hlt|Hge].
  - rewrite (main_valid cfg debug n w Hlt).
    set (setup := ((AddHandler (FileHandler (LOG_FILENAME cfg))
                    :: if debug then [AddHandler StreamHandler] else [])
                   ++ [OpenDevice (GPIO_PIN cfg)])%list).
    destruct (loop_calls_alternate cfg n (advance w 0 Off setup))
      as [k [evs [Hw Halt]]].
    cbn [advance fan] in Hw, Halt.
    assert (Hsetup : actuations setup = []) by (destruct debug; reflexivity).
    exists (k + 0)%nat, (final Off (actuations evs)), (setup ++ evs)%list.
    rewrite actuations_app, Hsetup. cbn [app].
    split; [rewrite Hw; apply advance_advance|]. split; [exact Halt|].
    reflexivity.
  - rewrite (main_invalid cfg debug n w Hge). cbn [snd].
    exists 0%nat, (fan w),
      (AddHandler (FileHandler (LOG_FILENAME cfg))
       :: if debug then [AddHandler StreamHandler] else []).
    split; [reflexivity|]. split; [destruct debug; reflexivity|]. lia.
Qed.

(** ** Hysteresis over time *)

(** X6.  With thresholds in order, a reading above [ON_THRESHOLD]
    leaves the fan on and a reading below [OFF_THRESHOLD] leaves it
    off, whatever state the fan was in before the iteration. *)
Theorem act_follows_reading (cfg : Config) (t : float) (w : World) :
  OFF_THRESHOLD cfg < ON_THRESHOLD cfg ->
  (gt_int t (ON_THRESHOLD cfg) = true -> fan (snd (act cfg t w)) = On)
  /\ (lt_int t (OFF_THRESHOLD cfg) = true -> fan (snd (act cfg t w)) = Off).
Proof.
  intros Hcfg. rewrite act_pollOnce. cbn [snd after fan]. unfold pollOnce.
  split; intros H.
  - rewrite H, (gt_int_above _ _ _ Hcfg H). destruct (fan w); reflexivity.
  - rewrite H, (lt_int_below _ _ _ Hcfg H). destruct (fan w); reflexivity.
Qed.

Lemma act_follows_reading_witness :
  OFF_THRESHOLD script_config < ON_THRESHOLD script_config
  /\ (gt_int (float_of_int 70) (ON_THRESHOLD script_config) = true ->
      fan (snd (act script_config (float_of_int 70) (world "" On))) = On)
  /\ (lt_int (float_of_int 70) (OFF_THRESHOLD script_config) = true ->
      fan (snd (act script_config (float_of_int 70) (world "" On))) = Off).
Proof.
  split; [reflexivity|].
  apply (act_follows_reading script_config (float_of_int 70) (world "" On)).
  reflexivity.
Defined.

(** X7.  With thresholds in order, while the sensor keeps giving the
    same temperature the loop calls the fan at most once, in its
    first iteration: all the later iterations keep the state that one
    chose. *)
Theorem loop_steady (cfg : Config) (t : float) (n : nat) (w : World) :
  OFF_THRESHOLD cfg < ON_THRESHOLD cfg ->
  (forall i, (i < S n)%nat ->
             get_temp_parse (replies w (runs w + i)) = Return t) ->
  exists evs,
    loop cfg (S n) w
    = (Return tt, advance w (S n) (fst (pollOnce cfg t (fan w))) evs)
    /\ actuations evs = calls (snd (pollOnce cfg t (fan w))).
Proof.
  intros Hcfg. revert w. induction n as [|n IH]; intros w Hsame.
  - rewrite loop_step, <- (Nat.add_0_r (runs w)), (Hsame 0%nat) by lia.
    eexists. split; [reflexivity|]. cbn [actuations].
    apply actuations_act_events.
  - rewrite loop_step.
    pose proof (Hsame 0%nat ltac:(lia)) as H0. rewrite Nat.add_0_r in H0.
    rewrite H0.
    destruct (IH (advance w 1 (fst (pollOnce cfg t (fan w)))
                          (RunVcgencmd :: act_events cfg t (fan w))))
      as [evs [Hloop Hcalls]].
    { intros i Hi. unfold advance. cbn [replies runs Nat.add].
      rewrite <- Nat.add_succ_r. apply Hsame. lia. }
    cbn [advance fan] in Hloop, Hcalls.
    rewrite (pollOnce_settled cfg t (fan w) Hcfg) in Hloop, Hcalls.
    cbn [fst snd calls] in Hloop, Hcalls.
    exists ((RunVcgencmd :: act_events cfg t (fan w)) ++ evs)%list.
    split.
    + rewrite Hloop, advance_advance, Nat.add_1_r. reflexivity.
    + rewrite actuations_app, Hcalls, app_nil_r. cbn [actuations].
      apply actuations_act_events.
Qed.

Lemma loop_steady_witness :
  OFF_THRESHOLD script_config < ON_THRESHOLD script_config
  /\ (forall i, (i < 3)%nat ->
        get_temp_parse
          (replies (world "temp=70.0'C" Off)
                   (runs (world "temp=70.0'C" Off) + i))
        = Return (float_of_int 70))
  /\ exists evs,
       loop script_config 3 (world "temp=70.0'C" Off)
       = (Return tt,
          advance (world "temp=70.0'C" Off) 3
            (fst (pollOnce script_config (float_of_int 70)
                           (fan (world "temp=70.0'C" Off)))) evs)
       /\ actuations evs
          = calls (snd (pollOnce script_config (float_of_int 70)
                                 (fan (world "temp=70.0'C" Off)))).
Proof.
  split; [reflexivity|]. split; [intros i _; reflexivity|].
  apply (loop_steady script_config (float_of_int 70) 2
                     (world "temp=70.0'C" Off)).
  - reflexivity.
  - intros i _. reflexivity.
Defined.

(** X8.  While every reading lies strictly between [OFF_THRESHOLD]
    and [ON_THRESHOLD], the loop never calls the fan, however many
    iterations it makes and whatever the readings are: the fan stays
    in the state it was in. *)
Theorem loop_dead_band (cfg : Config) (n : nat) (w : World) :
  (forall i, (i < n)%nat ->
     exists t, get_temp_parse (replies w (runs w + i)) = Return t
               /\ gt_int t (OFF_THRESHOLD cfg) = true
               /\ lt_int t (ON_THRESHOLD cfg) = true) ->
  exists evs,
    loop cfg n w = (Return tt, advance w n (fan w) evs)
    /\ actuations evs = [].
Proof.
  revert w. induction n as [|n IH]; intros w Hband.
  - exists []. cbn [loop]. unfold ret. split; [|reflexivity].
    f_equal. apply advance_refl.
  - rewrite loop_step.
    destruct (Hband 0%nat ltac:(lia)) as [t [H0 [Hgt Hlt]]].
    rewrite Nat.add_0_r in H0. rewrite H0.
    assert (Hp : pollOnce cfg t (fan w) = (fan w, none)).
    { unfold pollOnce.
      rewrite (lt_int_not_gt _ _ Hlt), (gt_int_not_lt _ _ Hgt).
      cbn [andb]. rewrite andb_false_r. reflexivity. }
    destruct (IH (advance w 1 (fst (pollOnce cfg t (fan w)))
                          (RunVcgencmd :: act_events cfg t (fan w))))
      as [evs [Hloop Hcalls]].
    { intros i Hi. unfold advance. cbn [replies runs Nat.add].
      rewrite <- Nat.add_succ_r. apply Hband. lia. }
    cbn [advance fan] in Hloop. rewrite Hp in Hloop. cbn [fst] in Hloop.
    exists ((RunVcgencmd :: act_events cfg t (fan w)) ++ evs)%list.
    split.
    + rewrite Hp. cbn [fst]. rewrite Hloop, advance_advance, Nat.add_1_r.
      reflexivity.
    + rewrite actuations_app, Hcalls, app_nil_r. cbn [actuations].
      rewrite actuations_act_events, Hp. reflexivity.
Qed.

Lemma loop_dead_band_witness :
  (forall i, (i < 4)%nat ->
     exists t,
       get_temp_parse
         (replies (world "temp=60.0'C" On) (runs (world "temp=60.0'C" On) + i))
       = Return t
       /\ gt_int t (OFF_THRESHOLD script_config) = true
       /\ lt_int t (ON_THRESHOLD script_config) = true)
  /\ exists evs,
       loop script_config 4 (world "temp=60.0'C" On)
       = (Return tt,
          advance (world "temp=60.0'C" On) 4 (fan (world "temp=60.0'C" On))
                  evs)
       /\ actuations evs = [].
Proof.
  assert (H : forall i, (i < 4)%nat ->
     exists t,
       get_temp_parse
         (replies (world "temp=60.0'C" On) (runs (world "temp=60.0'C" On) + i))
       = Return t
       /\ gt_int t (OFF_THRESHOLD script_config) = true
       /\ lt_int t (ON_THRESHOLD script_config) = true).
  { intros i _. exists (float_of_int 60). repeat split. }
  split; [exact H|].
  apply (loop_dead_band script_config 4 (world "temp=60.0'C" On) H).
Defined.

(** X9.  An output whose number is [nan] is not an error: [get_temp]
    returns a NaN, which is neither above nor below any threshold, so
    the iteration completes without a call on the fan, whatever the
    thresholds and the state of the fan. *)
Theorem poll_nan (cfg : Config) (w : World) :
  number_field (replies w (runs w)) "nan" ->
  exists evs,
    poll cfg w = (Return tt, advance w 1 (fan w) evs)
    /\ actuations evs = [].
Proof.
  intros Hfield. apply number_field_split in Hfield.
  destruct Hfield as [after_eq [Hnth Hhd]].
  assert (Hp : get_temp_parse (replies w (runs w)) = Return nan).
  { rewrite get_temp_parse_cases, Hnth, Hhd. reflexivity. }
  rewrite poll_cases, Hp.
  assert (Hd : pollOnce cfg nan (fan w) = (fan w, none)).
  { unfold pollOnce. cbn. rewrite andb_false_r. reflexivity. }
  eexists. split.
  - rewrite Hd. reflexivity.
  - cbn [actuations]. rewrite actuations_act_events, Hd. reflexivity.
Qed.

Lemma poll_nan_witness :
  number_field (replies (world "temp=nan'C" On) (runs (world "temp=nan'C" On)))
               "nan"
  /\ exists evs,
       poll script_config (world "temp=nan'C" On)
       = (Return tt,
          advance (world "temp=nan'C" On) 1 (fan (world "temp=nan'C" On)) evs)
       /\ actuations evs = [].
Proof.
  assert (H : number_field
                (replies (world "temp=nan'C" On)
                         (runs (world "temp=nan'C" On))) "nan").
  { exists "temp", "'C". repeat split.
    right. exists "C". right. reflexivity. }
  split; [exact H|].
  apply (poll_nan script_config (world "temp=nan'C" On) H).
Defined.

(** ** What the loop leaves alone, and what the log tells *)

Lemma act_events_no_setup (cfg : Config) (t : float) (s : FanState) :
  existsb is_setup (act_events cfg t s) = false.
Proof.
  unfold act_events, pollOnce.
  destruct (gt_int t (ON_THRESHOLD cfg)), s; cbn;
    try destruct (lt_int t (OFF_THRESHOLD cfg)); reflexivity.
Qed.

Lemma loop_no_setup (cfg : Config) (n : nat) (w : World) :
  exists k s evs,
    snd (loop cfg n w) = advance w k s evs
    /\ existsb is_setup evs = false.
Proof.
  revert w. induction n as [|n IH]; intros w.
  - exists 0%nat, (fan w), []. cbn [loop ret snd].
    split; [apply advance_refl|reflexivity].
  - rewrite loop_step.
    destruct (get_temp_parse (replies w (runs w))) as [t|e] eqn:Hp.
    + destruct (IH (advance w 1 (fst (pollOnce cfg t (fan w)))
                            (RunVcgencmd :: act_events cfg t (fan w))))
        as [k [s [evs [Hw Hno]]]].
      exists (k + 1)%nat, s,
        ((RunVcgencmd :: act_events cfg t (fan w)) ++ evs)%list.
      split; [rewrite Hw; apply advance_advance|].
      rewrite existsb_app, Hno. cbn [existsb is_setup].
      rewrite act_events_no_setup. reflexivity.
    + exists 1%nat, (fan w), [RunVcgencmd]. cbn [snd].
      split; reflexivity.
Qed.

(** X10.  With thresholds in order, [main] sets up the logger, then
    creates the output device on [GPIO_PIN], and only then starts to
    poll; the loop never adds a handler nor creates a device again. *)
Theorem main_opens_device_once (cfg : Config) (debug : bool) (n : nat)
    (w : World) :
  OFF_THRESHOLD cfg < ON_THRESHOLD cfg ->
  exists k s evs,
    snd (main cfg debug n w)
    = advance w k s
        ((AddHandler (FileHandler (LOG_FILENAME cfg))
          :: if debug then [AddHandler StreamHandler] else [])
         ++ OpenDevice (GPIO_PIN cfg) :: evs)
    /\ existsb is_setup evs = false.
Proof.
  intros Hcfg. rewrite (main_valid cfg debug n w Hcfg).
  set (setup := (AddHandler (FileHandler (LOG_FILENAME cfg))
                 :: if debug then [AddHandler StreamHandler] else [])).
  destruct (loop_no_setup cfg n
              (advance w 0 Off (setup ++ [OpenDevice (GPIO_PIN cfg)])))
    as [k [s [evs [Hw Hno]]]].
  exists (k + 0)%nat, s, evs. split; [|exact Hno].
  rewrite Hw, advance_advance, <- app_assoc. reflexivity.
Qed.

Lemma main_opens_device_once_witness :
  OFF_THRESHOLD script_config < ON_THRESHOLD script_config
  /\ exists k s evs,
       snd (main script_config true 2 (world "temp=70.0'C" Off))
       = advance (world "temp=70.0'C" Off) k s
           ((AddHandler (FileHandler (LOG_FILENAME script_config))
             :: if true then [AddHandler StreamHandler] else [])
            ++ OpenDevice (GPIO_PIN script_config) :: evs)
       /\ existsb is_setup evs = false.
Proof.
  split; [reflexivity|].
  apply (main_opens_device_once script_config true 2
                                (world "temp=70.0'C" Off)).
  reflexivity.
Defined.

Lemma announced_app (a b : list Event) :
  announced (a ++ b) = (announced a ++ announced b)%list.
Proof.
  induction a as [|e a IH]; [reflexivity|].
  destruct e as [h|lvl msg|pin| | | | |secs]; cbn; rewrite ?IH;
    try reflexivity.
  destruct lvl, msg; cbn; rewrite ?IH; reflexivity.
Qed.

Lemma announced_act_events (cfg : Config) (t : float) (s : FanState) :
  announced (act_events cfg t s) = actuations (act_events cfg t s).
Proof.
  unfold act_events, pollOnce.
  destruct (gt_int t (ON_THRESHOLD cfg)), s; cbn;
    try destruct (lt_int t (OFF_THRESHOLD cfg)); reflexivity.
Qed.

Lemma loop_announced (cfg : Config) (n : nat) (w : World) :
  exists k s evs,
    snd (loop cfg n w) = advance w k s evs
    /\ announced evs = actuations evs.
Proof.
  revert w. induction n as [|n IH]; intros w.
  - exists 0%nat, (fan w), []. cbn [loop ret snd].
    split; [apply advance_refl|reflexivity].
  - rewrite loop_step.
    destruct (get_temp_parse (replies w (runs w))) as [t|e] eqn:Hp.
    + destruct (IH (advance w 1 (fst (pollOnce cfg t (fan w)))
                            (RunVcgencmd :: act_events cfg t (fan w))))
        as [k [s [evs [Hw Hlog]]]].
      exists (k + 1)%nat, s,
        ((RunVcgencmd :: act_events cfg t (fan w)) ++ evs)%list.
      split; [rewrite Hw; apply advance_advance|].
      rewrite announced_app, actuations_app, Hlog. cbn [announced actuations].
      rewrite announced_act_events. reflexivity.
    + exists 1%nat, (fan w), [RunVcgencmd]. cbn [snd].
      split; reflexivity.
Qed.

(** X11.  The log tells what was done to the fan: over a whole run of
    [main], the warnings ["Turning on Fan"] and ["Turning off Fan"]
    are, in order, the calls [fan.on()] and [fan.off()] that were
    made; no call goes unannounced and no warning is logged without
    its call. *)
Theorem main_log_matches_calls (cfg : Config) (debug : bool) (n : nat)
    (w : World) :
  exists k s evs,
    snd (main cfg debug n w) = advance w k s evs
    /\ announced evs = actuations evs.
Proof.
  destruct (Z_lt_ge_dec (OFF_THRESHOLD cfg) (ON_THRESHOLD cfg)) as [Hlt|Hge].
  - rewrite (main_valid cfg debug n w Hlt).
    set (setup := ((AddHandler (FileHandler (LOG_FILENAME cfg))
                    :: if debug then [AddHandler StreamHandler] else [])
                   ++ [OpenDevice (GPIO_PIN cfg)])%list).
    destruct (loop_announced cfg n (advance w 0 Off setup))
      as [k [s [evs [Hw Hlog]]]].
    exists (k + 0)%nat, s, (setup ++ evs)%list.
    split; [rewrite Hw; apply advance_advance|].
    rewrite announced_app, actuations_app, Hlog.
    destruct debug; reflexivity.
  - rewrite (main_invalid cfg debug n w Hge). cbn [snd].
    exists 0%nat, (fan w),
      (AddHandler (FileHandler (LOG_FILENAME cfg))
       :: if debug then [AddHandler StreamHandler] else []).
    split; [reflexivity|]. destruct debug; reflexivity.
Qed.
